(** * dump.py: the cartridge-save dump script of the Zeal GBC adapter

    A shallow embedding of [dump.py] and the properties of its
    trigger / header / payload exchange over the serial line.

    The script talks to two library objects, a [serial.Serial] port and
    a binary file.  Both are modelled by a [World] that records what the
    device will send, what the host sent, the file system, and by a
    trace of the library calls the script issues, in program order. *)

From Stdlib Require Import ZArith List Lia Bool.
From Stdlib Require Import Strings.Byte Strings.Ascii Strings.String.
From stdpp Require Import base option gmap strings list.

Import ListNotations.
Local Open Scope Z_scope.

(** ** Values *)

(** Indexing a Python [bytes] object yields an [int] in [0, 255]. *)
Definition byte_val (b : byte) : Z := Z.of_N (Byte.to_N b).

(** The inverse, used to write down concrete wire data. *)
Definition byte_of_Z (z : Z) : byte :=
  match Byte.of_N (Z.to_N z) with
  | Some b => b
  | None => x00
  end.

(** Python's [ord] on a one-character string. *)
Definition ord (c : ascii) : Z := Z.of_N (N_of_ascii c).

(** A bytes literal such as [b'!']. *)
Definition bytes_literal (s : string) : list byte := list_byte_of_string s.

Definition DEFAULT_BAUDRATE : Z := 57600.

(** The namespace returned by [parser.parse_args()]. *)
Record Args := {
  args_outfile : string;
  args_ttynode : string;
  args_verbose : bool;
  args_baudrate : Z;
}.

(** [-o] and [-d] are required, [-v] is a flag, [-b] is an optional
    integer whose default is [DEFAULT_BAUDRATE]. *)
Definition parse_args (o d : string) (v : bool) (b : option Z) : Args :=
  {| args_outfile := o;
     args_ttynode := d;
     args_verbose := v;
     args_baudrate := default DEFAULT_BAUDRATE b |}.

(** ** Output, exceptions, library calls *)

(** What the script prints; the numbers are kept as numbers. *)
Inductive Message :=
| MsgConnecting (ttynode : string) (baudrate : Z)
| MsgInvalidHeader (b : Z)
| MsgDumping (bank_num bank_size total : Z)
| MsgDumped (outfile : string).

Inductive Exn := IndexError | SerialException | OSError.

(** One entry per library call issued by the script, logged when the
    call is made, whether it then succeeds or raises. *)
Inductive Event :=
| EvPrint (m : Message)
| EvSerialOpen (port : string) (baudrate timeout : Z)
| EvFileOpen (name : string)
| EvSerWrite (data : list byte)
| EvSerRead (size : Z) (data : list byte)
| EvFileWrite (name : string) (data : list byte)
| EvFileClose (name : string).

(** The [serial.Serial] object: its configuration. *)
Record SerialPort := {
  ser_port : string;
  ser_baudrate : Z;
  ser_timeout : Z;      (* pyserial counts the read timeout in seconds *)
}.

(** The file object returned by [open(name, "wb")]. *)
Record File := { file_name : string }.

(** ** The world outside the script *)

(** [rx] lists what the device sends: each element is a burst of bytes
    that arrives without a pause as long as the read timeout, and is
    followed by such a pause.  After the last burst the line stays
    silent.  [tx] collects the bytes that went out on the line.  A read
    never raises: a line that is closed or stays quiet is one that
    delivers nothing more, which a read sees as a timeout. *)
Record World := {
  port_ok : bool;       (* the tty node can be opened *)
  file_ok : bool;       (* the output path can be opened for writing *)
  tx_ok : bool;         (* the port accepts a write *)
  sink_ok : bool;       (* the file accepts a write *)
  rx : list (list byte);
  tx : list byte;
  fs : gmap string (list byte);
}.

Definition set_rx (r : list (list byte)) (w : World) : World :=
  {| port_ok := port_ok w; file_ok := file_ok w; tx_ok := tx_ok w;
     sink_ok := sink_ok w; rx := r; tx := tx w; fs := fs w |}.

Definition set_tx (t : list byte) (w : World) : World :=
  {| port_ok := port_ok w; file_ok := file_ok w; tx_ok := tx_ok w;
     sink_ok := sink_ok w; rx := rx w; tx := t; fs := fs w |}.

Definition set_fs (f : gmap string (list byte)) (w : World) : World :=
  {| port_ok := port_ok w; file_ok := file_ok w; tx_ok := tx_ok w;
     sink_ok := sink_ok w; rx := rx w; tx := tx w; fs := f |}.

(** ** The monad of the script: state, trace, early termination *)

Inductive Outcome (A : Type) :=
| Returned (a : A)          (* control reaches the next statement *)
| Exited (code : Z)         (* [exit(code)] *)
| Raised (e : Exn).         (* an exception nobody catches *)
Arguments Returned {A} a.
Arguments Exited {A} code.
Arguments Raised {A} e.

Record Run (A : Type) := mkRun {
  outcome : Outcome A;
  final : World;
  events : list Event;
}.
Arguments mkRun {A} _ _ _.
Arguments outcome {A} _.
Arguments final {A} _.
Arguments events {A} _.

Definition Py (A : Type) : Type := World -> Run A.

Definition ret {A} (a : A) : Py A := fun w => mkRun (Returned a) w [].

(** Sequencing: the continuation runs only when the first statement
    returns; [exit] and exceptions cut the rest of the script off. *)
Definition bind {A B} (k : A -> Py B) (m : Py A) : Py B :=
  fun w =>
    match m w with
    | mkRun (Returned a) w1 ev1 =>
        match k a w1 with
        | mkRun o w2 ev2 => mkRun o w2 (ev1 ++ ev2)
        end
    | mkRun (Exited c) w1 ev1 => mkRun (Exited c) w1 ev1
    | mkRun (Raised e) w1 ev1 => mkRun (Raised e) w1 ev1
    end.

#[export] Instance Py_ret : MRet Py := @ret.
#[export] Instance Py_bind : MBind Py := @bind.

Definition exit {A} (code : Z) : Py A := fun w => mkRun (Exited code) w [].

Definition raise {A} (e : Exn) : Py A := fun w => mkRun (Raised e) w [].

Definition print (m : Message) : Py unit :=
  fun w => mkRun (Returned tt) w [EvPrint m].

(** ** The library calls *)

(** [serial.Serial(port, baudrate, timeout=...)] opens the port. *)
Definition Serial (port : string) (baudrate timeout : Z) : Py SerialPort :=
  fun w =>
    let ev := [EvSerialOpen port baudrate timeout] in
    if port_ok w
    then mkRun (Returned {| ser_port := port; ser_baudrate := baudrate;
                            ser_timeout := timeout |}) w ev
    else mkRun (Raised SerialException) w ev.

(** [open(name, "wb")] creates the file, or empties an existing one. *)
Definition open_wb (name : string) : Py File :=
  fun w =>
    let ev := [EvFileOpen name] in
    if file_ok w
    then mkRun (Returned {| file_name := name |})
               (set_fs (<[name := []]> (fs w)) w) ev
    else mkRun (Raised OSError) w ev.

(** [ser.write(data)]. *)
Definition ser_write (ser : SerialPort) (data : list byte) : Py unit :=
  fun w =>
    let ev := [EvSerWrite data] in
    if tx_ok w
    then mkRun (Returned tt) (set_tx (tx w ++ data) w) ev
    else mkRun (Raised SerialException) w ev.

(** What a read of [n] bytes gets from the line, and what stays queued:
    the first [n] bytes of the current burst when it has that many,
    otherwise the whole burst once the timeout has elapsed. *)
Definition rx_take (n : nat) (q : list (list byte))
  : list byte * list (list byte) :=
  match q with
  | [] => ([], [])
  | burst :: rest =>
      if (n <=? length burst)%nat
      then (take n burst, drop n burst :: rest)
      else (burst, rest)
  end.
Arguments rx_take : simpl never.

(** [ser.read(size)]: at most [size] bytes, fewer after a timeout. *)
Definition ser_read (ser : SerialPort) (size : Z) : Py (list byte) :=
  fun w =>
    let got := rx_take (Z.to_nat size) (rx w) in
    mkRun (Returned (fst got)) (set_rx (snd got) w) [EvSerRead size (fst got)].

(** [bytes[i]] for a constant index [i >= 0]. *)
Definition getitem (bytes : list byte) (i : nat) : Py Z :=
  match bytes !! i with
  | Some b => ret (byte_val b)
  | None => raise IndexError
  end.

(** [outfile.write(data)] appends to the file. *)
Definition file_write (f : File) (data : list byte) : Py unit :=
  fun w =>
    let ev := [EvFileWrite (file_name f) data] in
    if sink_ok w
    then mkRun (Returned tt)
               (set_fs (<[file_name f :=
                            default [] (fs w !! file_name f) ++ data]> (fs w)) w)
               ev
    else mkRun (Raised OSError) w ev.

(** [outfile.close()]. *)
Definition file_close (f : File) : Py unit :=
  fun w => mkRun (Returned tt) w [EvFileClose (file_name f)].

(** ** The script *)

(** Lines 28 to 54: the exchange with the 8-bit computer, once the port
    [ser] and the file [outfile] are open. *)
Definition session (args : Args) (ser : SerialPort) (outfile : File)
  : Py unit :=
  ser_write ser (bytes_literal "!"%string) ;;
  bytes ← ser_read ser 4 ;
  b0 ← getitem bytes 0 ;
  (if negb (b0 =? ord "="%char)
   then print (MsgInvalidHeader b0) ;; exit 1
   else ret tt) ;;
  bank_num ← getitem bytes 1 ;
  lo ← getitem bytes 2 ;
  hi ← getitem bytes 3 ;
  let bank_size := Z.lor lo (Z.shiftl hi 8) in
  let total := bank_num * bank_size in
  print (MsgDumping bank_num bank_size total) ;;
  bytes ← ser_read ser total ;
  file_write outfile bytes ;;
  print (MsgDumped (args_outfile args)) ;;
  file_close outfile.

(** Lines 17 to 54: the whole script after argument parsing. *)
Definition main (args : Args) : Py unit :=
  (if args_verbose args
   then print (MsgConnecting (args_ttynode args) (args_baudrate args))
   else ret tt) ;;
  ser ← Serial (args_ttynode args) (args_baudrate args) (args_baudrate args) ;
  outfile ← open_wb (args_outfile args) ;
  session args ser outfile.

(** ** Reading a run *)

(** The bank count, bank size and byte total the script announces. *)
Record DumpSummary := {
  bankCount : Z;
  bankSize : Z;
  totalBytes : Z;
}.

(** The error kinds of the specification's taxonomy. *)
Inductive DumpError :=
| ChannelWriteError
| ProtocolHeaderError (b : Z)
| ShortReadError (expected received : Z)
| SinkWriteError.

(** How a run of the script ends, in the specification's words. *)
Inductive Verdict :=
| Done (s : DumpSummary)      (* the script ran to its last line *)
| Failed (e : DumpError)      (* a diagnostic, then [exit] *)
| Uncaught (e : Exn)          (* a traceback *)
| Unclassified.

Definition printed (tr : list Event) : list Message :=
  omap (fun ev => match ev with EvPrint m => Some m | _ => None end) tr.

Definition summary (tr : list Event) : option DumpSummary :=
  last (omap (fun m => match m with
                       | MsgDumping n s t =>
                           Some {| bankCount := n; bankSize := s;
                                   totalBytes := t |}
                       | _ => None
                       end) (printed tr)).

Definition verdict (r : Run unit) : Verdict :=
  match outcome r with
  | Returned _ =>
      match summary (events r) with
      | Some s => Done s
      | None => Unclassified
      end
  | Exited _ =>
      match last (printed (events r)) with
      | Some (MsgInvalidHeader b) => Failed (ProtocolHeaderError b)
      | _ => Unclassified
      end
  | Raised e => Uncaught e
  end.

(** The bytes handed to [outfile.write], in order. *)
Definition sink_received (tr : list Event) : list byte :=
  concat (omap (fun ev => match ev with
                          | EvFileWrite _ d => Some d
                          | _ => None
                          end) tr).

(** The bytes handed to [ser.write], in order. *)
Definition channel_sent (tr : list Event) : list byte :=
  concat (omap (fun ev => match ev with
                          | EvSerWrite d => Some d
                          | _ => None
                          end) tr).

Definition is_ser_write (ev : Event) : bool :=
  match ev with EvSerWrite _ => true | _ => false end.

Definition is_ser_read (ev : Event) : bool :=
  match ev with EvSerRead _ _ => true | _ => false end.

Definition is_file_write (ev : Event) : bool :=
  match ev with EvFileWrite _ _ => true | _ => false end.

Definition is_channel_io (ev : Event) : bool :=
  is_ser_write ev || is_ser_read ev.

(** ** Concrete wire data *)

Definition header_bytes (bank_num bank_size : Z) : list byte :=
  map byte_of_Z [61; bank_num; Z.land bank_size 255;
                 Z.land (Z.shiftr bank_size 8) 255].

(** The bytes [0x00 .. 0xFF], repeated [n] times. *)
Definition ramp (n : nat) : list byte :=
  concat (replicate n (map (fun i => byte_of_Z (Z.of_nat i)) (seq 0 256))).

Definition quiet_world (q : list (list byte)) : World :=
  {| port_ok := true; file_ok := true; tx_ok := true; sink_ok := true;
     rx := q; tx := []; fs := ∅ |}.

Definition is_serial_open (ev : Event) : bool :=
  match ev with EvSerialOpen _ _ _ => true | _ => false end.

(** ** The start of the script *)

(** What line 18 adds to the trace. *)
Definition greeting (args : Args) : list Event :=
  if args_verbose args
  then [EvPrint (MsgConnecting (args_ttynode args) (args_baudrate args))]
  else [].

(** The port object line 22 builds. *)
Definition port_of (args : Args) : SerialPort :=
  {| ser_port := args_ttynode args;
     ser_baudrate := args_baudrate args;
     ser_timeout := args_baudrate args |}.

(** The calls of lines 22 and 25. *)
Definition opening (args : Args) : list Event :=
  [EvSerialOpen (args_ttynode args) (args_baudrate args) (args_baudrate args);
   EvFileOpen (args_outfile args)].

(** The world once line 25 has created the output file. *)
Definition opened (args : Args) (w : World) : World :=
  set_fs (<[args_outfile args := []]> (fs w)) w.

(** ** Sample runs *)

Definition demo_args : Args :=
  parse_args "save.bin" "/dev/ttyUSB0" false None.

Definition demo_ser : SerialPort := port_of demo_args.

Definition demo_file : File := {| file_name := "save.bin" |}.

(** Two banks of 256 bytes are announced, three bytes follow, then the
    line goes silent. *)
Definition short_world : World :=
  quiet_world [header_bytes 2 256 ++ [x00; x01; x02]].

(** The device never answers. *)
Definition silent_world : World := quiet_world [].

(** The header [0x3D, 0, 0, 0] and nothing else. *)
Definition empty_dump_world : World := quiet_world [header_bytes 0 0].

(** The world once the trigger went out and the header read returned. *)
Definition after_header (w : World) : World :=
  set_rx (snd (rx_take 4 (rx w))) (set_tx (tx w ++ bytes_literal "!"%string) w).

(** The world once the payload read of [total] bytes returned as well. *)
Definition after_payload (total : Z) (w : World) : World :=
  set_rx (snd (rx_take (Z.to_nat total) (rx (after_header w)))) (after_header w).

(** What the payload read of [total] bytes returns. *)
Definition payload_read (total : Z) (w : World) : list byte :=
  fst (rx_take (Z.to_nat total) (rx (after_header w))).

(** The trigger call of line 28. *)
Definition trigger : Event := EvSerWrite (bytes_literal "!"%string).

(** The ways a session can go, one constructor per place where the
    script can stop: the trigger write, the first lookup in the header,
    the marker test, a later lookup, the file write, the last line. *)
Inductive SessionPath (args : Args) (outfile : File) (w : World)
  : Run unit -> Prop :=
| PathTriggerFails :
    tx_ok w = false ->
    SessionPath args outfile w (mkRun (Raised SerialException) w [trigger])
| PathSilence :
    tx_ok w = true ->
    fst (rx_take 4 (rx w)) = [] ->
    SessionPath args outfile w
      (mkRun (Raised IndexError) (after_header w) [trigger; EvSerRead 4 []])
| PathBadMarker (b : byte) (rest : list byte) :
    tx_ok w = true ->
    fst (rx_take 4 (rx w)) = b :: rest ->
    byte_val b <> ord "="%char ->
    SessionPath args outfile w
      (mkRun (Exited 1) (after_header w)
         [trigger; EvSerRead 4 (b :: rest);
          EvPrint (MsgInvalidHeader (byte_val b))])
| PathCutHeader (m : byte) (rest : list byte) :
    tx_ok w = true ->
    fst (rx_take 4 (rx w)) = m :: rest ->
    byte_val m = ord "="%char ->
    (length rest < 3)%nat ->
    SessionPath args outfile w
      (mkRun (Raised IndexError) (after_header w)
         [trigger; EvSerRead 4 (m :: rest)])
| PathSinkFails (m c lo hi : byte) :
    tx_ok w = true ->
    fst (rx_take 4 (rx w)) = [m; c; lo; hi] ->
    byte_val m = ord "="%char ->
    sink_ok w = false ->
    let bank_num := byte_val c in
    let bank_size := Z.lor (byte_val lo) (Z.shiftl (byte_val hi) 8) in
    let total := bank_num * bank_size in
    SessionPath args outfile w
      (mkRun (Raised OSError) (after_payload total w)
         [trigger; EvSerRead 4 [m; c; lo; hi];
          EvPrint (MsgDumping bank_num bank_size total);
          EvSerRead total (payload_read total w);
          EvFileWrite (file_name outfile) (payload_read total w)])
| PathDone (m c lo hi : byte) :
    tx_ok w = true ->
    fst (rx_take 4 (rx w)) = [m; c; lo; hi] ->
    byte_val m = ord "="%char ->
    sink_ok w = true ->
    let bank_num := byte_val c in
    let bank_size := Z.lor (byte_val lo) (Z.shiftl (byte_val hi) 8) in
    let total := bank_num * bank_size in
    let name := file_name outfile in
    SessionPath args outfile w
      (mkRun (Returned tt)
         (set_fs (<[name := default [] (fs w !! name)
                              ++ payload_read total w]> (fs w))
                 (after_payload total w))
         [trigger; EvSerRead 4 [m; c; lo; hi];
          EvPrint (MsgDumping bank_num bank_size total);
          EvSerRead total (payload_read total w);
          EvFileWrite name (payload_read total w);
          EvPrint (MsgDumped (args_outfile args));
          EvFileClose name]).

(** An event of the payload stage: a write to the file, or a read from
    the line that is not the first one. *)
Definition payload_stage (pre : list Event) (ev : Event) : bool :=
  is_file_write ev || (is_ser_read ev && existsb is_ser_read pre).

(** The bytes all [ser.read] calls returned, in order. *)
Definition line_read (tr : list Event) : list byte :=
  concat (omap (fun ev => match ev with
                          | EvSerRead _ d => Some d
                          | _ => None
                          end) tr).

(** The namespace with the [-v] flag set to [v]. *)
Definition with_verbose (v : bool) (a : Args) : Args :=
  {| args_outfile := args_outfile a;
     args_ttynode := args_ttynode a;
     args_verbose := v;
     args_baudrate := args_baudrate a |}.

(** ** Bytes and the header arithmetic *)

Lemma byte_val_range (b : byte) : 0 <= byte_val b <= 255.
Proof.
  unfold byte_val. pose proof (Byte.to_N_bounded b). lia.
Qed.

Lemma byte_val_of_Z (z : Z) : 0 <= z <= 255 -> byte_val (byte_of_Z z) = z.
Proof.
  intros Hz. unfold byte_val, byte_of_Z.
  destruct (Byte.of_N (Z.to_N z)) as [b|] eqn:E.
  - apply Byte.to_of_N in E. rewrite E. lia.
  - apply Byte.of_N_None_iff in E. lia.
Qed.

Lemma land_255_range (z : Z) : 0 <= Z.land z 255 <= 255.
Proof.
  change (Z.land z 255) with (Z.land z (Z.ones 8)).
  rewrite Z.land_ones by lia. change (2 ^ 8) with 256.
  pose proof (Z.mod_pos_bound z 256). lia.
Qed.

Lemma testbit_255 (n : Z) : 0 <= n -> Z.testbit 255 n = (n <? 8).
Proof.
  intros Hn. change 255 with (Z.ones 8).
  destruct (Z.ltb_spec n 8).
  - apply Z.ones_spec_low. lia.
  - apply Z.ones_spec_high. lia.
Qed.

(** Splitting a 16-bit value into its two bytes and gluing them back
    the way line 41 does gives the value again. *)
Lemma bank_size_little_endian (s : Z) :
  0 <= s <= 65535 ->
  Z.lor (Z.land s 255) (Z.shiftl (Z.land (Z.shiftr s 8) 255) 8) = s.
Proof.
  intros Hs. apply Z.bits_inj'. intros n Hn.
  rewrite Z.lor_spec, Z.land_spec, testbit_255 by lia.
  rewrite Z.shiftl_spec by lia.
  destruct (Z.ltb_spec n 8) as [Hlt|Hge].
  - rewrite (Z.testbit_neg_r _ (n - 8)) by lia.
    now rewrite andb_true_r, orb_false_r.
  - rewrite Z.land_spec, Z.shiftr_spec, testbit_255 by lia.
    replace (n - 8 + 8) with n by lia.
    rewrite andb_false_r. simpl.
    destruct (Z.ltb_spec (n - 8) 8) as [Hlt'|Hge'].
    + now rewrite andb_true_r.
    + rewrite andb_false_r. symmetry.
      destruct (Z.eq_dec s 0) as [->|Hnz]; [apply Z.testbit_0_l|].
      apply Z.bits_above_log2; [lia|].
      apply Z.log2_lt_pow2; [lia|].
      apply Z.lt_le_trans with (2 ^ 16); [lia|].
      apply Z.pow_le_mono_r; lia.
Qed.

Lemma header_bytes_decode (c s : Z) :
  0 <= c <= 255 -> 0 <= s <= 65535 ->
  exists m bc lo hi,
    header_bytes c s = [m; bc; lo; hi] /\
    byte_val m = 61 /\
    byte_val bc = c /\
    Z.lor (byte_val lo) (Z.shiftl (byte_val hi) 8) = s.
Proof.
  intros Hc Hs. unfold header_bytes. simpl map.
  eexists _, _, _, _. split; [reflexivity|].
  rewrite !byte_val_of_Z by (auto using land_255_range; lia).
  auto using bank_size_little_endian.
Qed.

(** ** The line *)

Lemma rx_take_length (n : nat) (q : list (list byte)) :
  (length (fst (rx_take n q)) <= n)%nat.
Proof.
  unfold rx_take. destruct q as [|burst rest]; simpl; [lia|].
  destruct (Nat.leb_spec n (length burst)); simpl.
  - rewrite length_take. lia.
  - lia.
Qed.

(** A read of no bytes returns at once and leaves the line as it is,
    up to an empty burst. *)
Lemma rx_take_0 (q : list (list byte)) : fst (rx_take 0 q) = [].
Proof.
  unfold rx_take. destruct q as [|burst rest]; simpl; [reflexivity|].
  now rewrite take_0.
Qed.

(** ** The paths through the session *)

Ltac step_session :=
  unfold session, mbind, Py_bind, bind, ser_write, ser_read, getitem, print,
    exit, raise, ret, file_write, file_close, after_payload, payload_read,
    after_header; simpl; change (Z.to_nat 4) with 4%nat.

Section Session.
Variable args : Args.
Variable ser : SerialPort.
Variable outfile : File.

Local Abbreviation run_session := (session args ser outfile).

(** Line 28 raises: the script stops there. *)
Lemma session_trigger_fails (w : World) :
  tx_ok w = false ->
  run_session w = mkRun (Raised SerialException) w [trigger].
Proof.
  intros Htx. step_session. now rewrite Htx.
Qed.

(** Nothing arrives: [bytes[0]] on line 36 is out of range. *)
Lemma session_silence (w : World) :
  tx_ok w = true ->
  fst (rx_take 4 (rx w)) = [] ->
  run_session w =
    mkRun (Raised IndexError) (after_header w) [trigger; EvSerRead 4 []].
Proof.
  intros Htx Hhdr. step_session. rewrite Htx. simpl.
  now rewrite Hhdr.
Qed.

(** Lines 36 to 38: the first byte is not ['=']. *)
Lemma session_bad_marker (w : World) (b : byte) (rest : list byte) :
  tx_ok w = true ->
  fst (rx_take 4 (rx w)) = b :: rest ->
  byte_val b <> ord "="%char ->
  run_session w =
    mkRun (Exited 1) (after_header w)
          [trigger; EvSerRead 4 (b :: rest);
           EvPrint (MsgInvalidHeader (byte_val b))].
Proof.
  intros Htx Hhdr Hb. step_session. rewrite Htx. simpl.
  rewrite Hhdr. simpl.
  apply Z.eqb_neq in Hb. now rewrite Hb.
Qed.

(** The marker is there but the header is cut short: one of the
    lookups on lines 40 and 41 is out of range. *)
Lemma session_cut_header (w : World) (m : byte) (rest : list byte) :
  tx_ok w = true ->
  fst (rx_take 4 (rx w)) = m :: rest ->
  byte_val m = ord "="%char ->
  (length rest < 3)%nat ->
  run_session w =
    mkRun (Raised IndexError) (after_header w)
          [trigger; EvSerRead 4 (m :: rest)].
Proof.
  intros Htx Hhdr Hm Hlen. step_session. rewrite Htx. simpl.
  rewrite Hhdr. simpl.
  apply Z.eqb_eq in Hm. rewrite Hm. simpl.
  destruct rest as [|c [|lo [|hi rest]]]; simpl in *; try reflexivity; lia.
Qed.

(** Lines 40 to 54: a full header with the marker in place. *)
Lemma session_transfer (w : World) (m c lo hi : byte) :
  tx_ok w = true ->
  fst (rx_take 4 (rx w)) = [m; c; lo; hi] ->
  byte_val m = ord "="%char ->
  let bank_num := byte_val c in
  let bank_size := Z.lor (byte_val lo) (Z.shiftl (byte_val hi) 8) in
  let total := bank_num * bank_size in
  let name := file_name outfile in
  let bytes := payload_read total w in
  let w' := after_payload total w in
  run_session w =
    if sink_ok w
    then mkRun (Returned tt)
           (set_fs (<[name := default [] (fs w !! name) ++ bytes]> (fs w)) w')
           [trigger; EvSerRead 4 [m; c; lo; hi];
            EvPrint (MsgDumping bank_num bank_size total);
            EvSerRead total bytes;
            EvFileWrite name bytes;
            EvPrint (MsgDumped (args_outfile args));
            EvFileClose name]
    else mkRun (Raised OSError) w'
           [trigger; EvSerRead 4 [m; c; lo; hi];
            EvPrint (MsgDumping bank_num bank_size total);
            EvSerRead total bytes;
            EvFileWrite name bytes].
Proof.
  intros Htx Hhdr Hm. step_session. rewrite Htx. simpl.
  rewrite Hhdr. simpl.
  apply Z.eqb_eq in Hm. rewrite Hm. simpl.
  destruct (sink_ok w); reflexivity.
Qed.

End Session.

(** Every session follows one of the paths. *)
Lemma session_path (args : Args) (ser : SerialPort) (outfile : File)
    (w : World) :
  SessionPath args outfile w (session args ser outfile w).
Proof.
  destruct (tx_ok w) eqn:Htx.
  2: { rewrite session_trigger_fails by assumption. now constructor. }
  destruct (fst (rx_take 4 (rx w))) as [|m rest] eqn:Hhdr.
  { rewrite session_silence by assumption. now constructor. }
  destruct (Z.eq_dec (byte_val m) (ord "="%char)) as [Hm|Hm].
  2: { erewrite session_bad_marker by eassumption. now constructor. }
  destruct (lt_dec (length rest) 3) as [Hlen|Hlen].
  { erewrite session_cut_header by eassumption. now constructor. }
  pose proof (rx_take_length 4 (rx w)) as Hle. rewrite Hhdr in Hle.
  destruct rest as [|c [|lo [|hi [|x rest]]]]; simpl in *; try lia.
  rewrite (session_transfer args ser outfile w m c lo hi) by assumption.
  destruct (sink_ok w) eqn:Hsink; now constructor.
Qed.

(** ** The trigger *)

(** Splits [H : pre ++ ev :: post = l] for a list [l] written out in
    full into one goal per position of [ev] in [l]. *)
Ltac split_trace H pre :=
  repeat (destruct pre as [|? pre];
          [simpl in H; injection H as <- <- | simpl in H; injection H as <- H]);
  try (destruct pre; discriminate H).

(** C4 (exact trigger): every session issues exactly one write on the
    channel, the single byte 0x21, and issues it before any read; when
    the port accepts the write, that byte is all that went out. *)
Theorem exact_trigger (args : Args) (ser : SerialPort) (outfile : File)
    (w : World) :
  let r := session args ser outfile w in
  (exists rest,
      events r = EvSerWrite ["!"%byte] :: rest /\
      Forall (fun ev => is_ser_write ev = false) rest) /\
  channel_sent (events r) = ["!"%byte] /\
  byte_val "!"%byte = 33 /\
  (tx_ok w = true -> tx (final r) = tx w ++ ["!"%byte]).
Proof.
  intros r. subst r.
  destruct (session_path args ser outfile w); simpl;
    (split; [eexists; split; [reflexivity|repeat constructor]|]);
    (split; [reflexivity|]); (split; [reflexivity|]);
    intros Htx; try reflexivity; congruence.
Qed.

Lemma exact_trigger_witness :
  tx (final (session demo_args demo_ser demo_file
                     (quiet_world [header_bytes 2 256 ++ ramp 2])))
  = ["!"%byte].
Proof.
  apply (exact_trigger demo_args demo_ser demo_file
           (quiet_world [header_bytes 2 256 ++ ramp 2])).
  reflexivity.
Defined.

(** ** Header before payload *)

(** C5 (no write before a validated header): the first read of a session
    asks for exactly 4 bytes, and every event of the payload stage, a
    later read or a write to the file, comes after a header read that
    returned exactly 4 bytes whose first is the marker 0x3D. *)
Theorem header_before_payload (args : Args) (ser : SerialPort)
    (outfile : File) (w : World) (pre post : list Event) (ev : Event) :
  events (session args ser outfile w) = pre ++ ev :: post ->
  (is_ser_read ev = true -> existsb is_ser_read pre = false ->
   exists data, ev = EvSerRead 4 data /\ (length data <= 4)%nat) /\
  (payload_stage pre ev = true ->
   exists m c lo hi,
     In (EvSerRead 4 [m; c; lo; hi]) pre /\ byte_val m = 61).
Proof.
  intros H.
  pose proof (rx_take_length 4 (rx w)) as Hlen.
  destruct (session_path args ser outfile w) as
    [Htx|Htx Hh|b rest Htx Hh Hb|m rest Htx Hh Hm Hl
    |m c lo hi Htx Hh Hm Hs|m c lo hi Htx Hh Hm Hs];
    simpl in H; try rewrite Hh in Hlen; split_trace H pre;
    (split; [intros Hr Hp; try discriminate; eauto|]);
    unfold payload_stage; simpl; intros Hp; try discriminate;
    exists m, c, lo, hi; simpl; auto.
Qed.

(** ** The header *)

(** C1 (header parsing): when the header read returns
    [0x3D, bankCount, bankSize & 0xFF, (bankSize >> 8) & 0xFF], the
    session takes bytes 2 and 3 as the little-endian bank size, announces
    [bankCount * bankSize] bytes and asks the line for exactly that
    many. *)
Theorem header_parsing (args : Args) (ser : SerialPort) (outfile : File)
    (w : World) (bankCount bankSize : Z) :
  0 <= bankCount <= 255 ->
  0 <= bankSize <= 65535 ->
  tx_ok w = true ->
  fst (rx_take 4 (rx w)) = header_bytes bankCount bankSize ->
  let r := session args ser outfile w in
  let total := bankCount * bankSize in
  take 4 (events r) =
    [trigger; EvSerRead 4 (header_bytes bankCount bankSize);
     EvPrint (MsgDumping bankCount bankSize total);
     EvSerRead total (payload_read total w)] /\
  summary (events r) =
    Some {| bankCount := bankCount; bankSize := bankSize;
            totalBytes := bankCount * bankSize |}.
Proof.
  intros Hc Hs Htx Hhdr r total. subst r total.
  destruct (header_bytes_decode bankCount bankSize Hc Hs)
    as (m & c & lo & hi & Heq & Hm & Hbc & Hsz).
  rewrite Heq in *.
  rewrite (session_transfer args ser outfile w m c lo hi Htx Hhdr Hm).
  rewrite Hbc, Hsz.
  destruct (sink_ok w); split; reflexivity.
Qed.

Lemma header_parsing_witness :
  summary (events (session demo_args demo_ser demo_file
                           (quiet_world [header_bytes 3 4660 ++ ramp 1])))
  = Some {| bankCount := 3; bankSize := 4660; totalBytes := 3 * 4660 |}.
Proof.
  apply (header_parsing demo_args demo_ser demo_file
           (quiet_world [header_bytes 3 4660 ++ ramp 1]) 3 4660);
    [lia | lia | reflexivity | reflexivity].
Defined.

(** C3 (marker rejection): when the first header byte is not 0x3D the
    session prints the offending byte and exits with status 1; the
    header read is the only read, nothing is handed to the file and the
    file system is left as it was. *)
Theorem marker_rejection (args : Args) (ser : SerialPort) (outfile : File)
    (w : World) (b : byte) (rest : list byte) :
  tx_ok w = true ->
  fst (rx_take 4 (rx w)) = b :: rest ->
  byte_val b <> 61 ->
  let r := session args ser outfile w in
  verdict r = Failed (ProtocolHeaderError (byte_val b)) /\
  outcome r = Exited 1 /\
  filter (fun ev => is_ser_read ev = true) (events r)
    = [EvSerRead 4 (b :: rest)] /\
  filter (fun ev => is_file_write ev = true) (events r) = [] /\
  sink_received (events r) = [] /\
  fs (final r) = fs w.
Proof.
  intros Htx Hhdr Hb r. subst r.
  rewrite (session_bad_marker args ser outfile w b rest Htx Hhdr Hb).
  repeat split; reflexivity.
Qed.

Lemma marker_rejection_witness :
  verdict (session demo_args demo_ser demo_file
                   (quiet_world [["?"%byte; x02; x00; x01] ++ ramp 2]))
  = Failed (ProtocolHeaderError 63).
Proof.
  apply (marker_rejection demo_args demo_ser demo_file
           (quiet_world [["?"%byte; x02; x00; x01] ++ ramp 2])
           "?"%byte [x02; x00; x01]);
    [reflexivity | reflexivity | vm_compute; discriminate].
Defined.

(** ** Reads that come back short *)

(** C2, as stated, fails: two banks of 256 bytes are announced and only
    three bytes arrive before the timeout, yet the script ends on its
    last line, prints the success message and reports no short read. *)
Lemma short_read_reports_success :
  payload_read 512 short_world = [x00; x01; x02] /\
  outcome (session demo_args demo_ser demo_file short_world) = Returned tt /\
  verdict (session demo_args demo_ser demo_file short_world)
    = Done {| bankCount := 2; bankSize := 256; totalBytes := 512 |} /\
  In (EvPrint (MsgDumped "save.bin"))
     (events (session demo_args demo_ser demo_file short_world)) /\
  ~ (exists expected received,
        verdict (session demo_args demo_ser demo_file short_world)
        = Failed (ShortReadError expected received)).
Proof.
  repeat split; try reflexivity.
  - vm_compute. tauto.
  - intros (e & n & H). vm_compute in H. discriminate H.
Qed.

(** C2, amended: when the payload read returns fewer bytes than the
    header announced, the script does not notice: it hands exactly the
    bytes it got to the file, prints the success message and ends on its
    last line.  The file receives exactly, hence at most, the bytes that
    arrived. *)
Theorem short_read_written_as_is (args : Args) (ser : SerialPort)
    (outfile : File) (w : World) (m c lo hi : byte) :
  tx_ok w = true ->
  sink_ok w = true ->
  fst (rx_take 4 (rx w)) = [m; c; lo; hi] ->
  byte_val m = 61 ->
  let bank_size := Z.lor (byte_val lo) (Z.shiftl (byte_val hi) 8) in
  let total := byte_val c * bank_size in
  (length (payload_read total w) < Z.to_nat total)%nat ->
  let r := session args ser outfile w in
  outcome r = Returned tt /\
  verdict r = Done {| bankCount := byte_val c; bankSize := bank_size;
                      totalBytes := total |} /\
  In (EvPrint (MsgDumped (args_outfile args))) (events r) /\
  sink_received (events r) = payload_read total w /\
  (length (sink_received (events r)) < Z.to_nat total)%nat /\
  fs (final r) !! file_name outfile
    = Some (default [] (fs w !! file_name outfile) ++ payload_read total w).
Proof.
  intros Htx Hsink Hhdr Hm bank_size total Hshort r. subst r.
  rewrite (session_transfer args ser outfile w m c lo hi Htx Hhdr Hm).
  rewrite Hsink. fold bank_size. fold total. simpl.
  unfold sink_received. simpl. rewrite app_nil_r.
  repeat split; auto.
  - tauto.
  - apply lookup_insert_eq.
Qed.

Lemma short_read_written_as_is_witness :
  sink_received (events (session demo_args demo_ser demo_file short_world))
  = payload_read (byte_val x02
                  * Z.lor (byte_val x00) (Z.shiftl (byte_val x01) 8))
                 short_world.
Proof.
  apply (short_read_written_as_is demo_args demo_ser demo_file short_world
           "="%byte x02 x00 x01);
    [reflexivity | reflexivity | reflexivity | reflexivity
    | vm_compute; lia].
Defined.

(** C6, as stated, fails: when the device stays silent the header read
    returns nothing and [bytes[0]] raises [IndexError], which nobody
    catches; no short read is reported. *)
Lemma silent_header_crashes :
  fst (rx_take 4 (rx silent_world)) = [] /\
  outcome (session demo_args demo_ser demo_file silent_world)
    = Raised IndexError /\
  verdict (session demo_args demo_ser demo_file silent_world)
    = Uncaught IndexError /\
  ~ (exists expected received,
        verdict (session demo_args demo_ser demo_file silent_world)
        = Failed (ShortReadError expected received)).
Proof.
  repeat split; try reflexivity.
  intros (e & n & H). vm_compute in H. discriminate H.
Qed.

(** C6, amended: when the header read returns fewer than 4 bytes the
    session goes no further: that read is the only one, nothing is
    handed to the file, the file system stays as it was and the script
    does not reach its last line.  No short read is reported; when a
    first byte did arrive and is not 0x3D, the script ends with the
    invalid-header message and exit status 1. *)
Theorem short_header_stops_session (args : Args) (ser : SerialPort)
    (outfile : File) (w : World) :
  tx_ok w = true ->
  (length (fst (rx_take 4 (rx w))) < 4)%nat ->
  let r := session args ser outfile w in
  outcome r <> Returned tt /\
  filter (fun ev => is_ser_read ev = true) (events r)
    = [EvSerRead 4 (fst (rx_take 4 (rx w)))] /\
  filter (fun ev => is_file_write ev = true) (events r) = [] /\
  sink_received (events r) = [] /\
  fs (final r) = fs w /\
  (forall expected received,
      verdict r <> Failed (ShortReadError expected received)) /\
  (forall b rest,
      fst (rx_take 4 (rx w)) = b :: rest -> byte_val b <> 61 ->
      outcome r = Exited 1 /\
      verdict r = Failed (ProtocolHeaderError (byte_val b))).
Proof.
  intros Htx Hlen r. subst r.
  destruct (session_path args ser outfile w) as
    [Htx'|_ Hh|b rest _ Hh Hb|m rest _ Hh Hm Hl
    |m c lo hi _ Hh Hm Hs|m c lo hi _ Hh Hm Hs];
    try congruence; rewrite Hh in *; simpl in Hlen; try lia.
  all: split; [discriminate|].
  all: do 4 (split; [reflexivity|]).
  all: split; [intros e n; discriminate|].
  all: intros b' rest' Heq Hb'; try discriminate.
  all: injection Heq as <- <-; try contradiction; auto.
Qed.

Lemma short_header_stops_session_witness :
  outcome (session demo_args demo_ser demo_file
                   (quiet_world [["?"%byte; x02]])) = Exited 1.
Proof.
  assert (Hlen : (length (fst (rx_take 4 (rx (quiet_world [["?"%byte; x02]]))))
                  < 4)%nat) by (vm_compute; lia).
  destruct (short_header_stops_session demo_args demo_ser demo_file
              (quiet_world [["?"%byte; x02]]) eq_refl Hlen)
    as (_ & _ & _ & _ & _ & _ & H).
  apply (H "?"%byte [x02]); [reflexivity | vm_compute; discriminate].
Defined.

Lemma header_before_payload_witness :
  exists m c lo hi,
    In (EvSerRead 4 [m; c; lo; hi])
       [trigger; EvSerRead 4 (header_bytes 0 0);
        EvPrint (MsgDumping 0 0 0); EvSerRead 0 []] /\
    byte_val m = 61.
Proof.
  apply (header_before_payload demo_args demo_ser demo_file empty_dump_world
           [trigger; EvSerRead 4 (header_bytes 0 0);
            EvPrint (MsgDumping 0 0 0); EvSerRead 0 []]
           [EvPrint (MsgDumped "save.bin"); EvFileClose "save.bin"]
           (EvFileWrite "save.bin" []));
    reflexivity.
Defined.

(** ** Empty dumps *)

(** C7 (zero-size transfer): when the header announces no bank, or banks
    of no bytes, the total is 0; the session still reads (zero bytes)
    and writes (nothing), the file receives no byte and keeps its
    content, and the script ends on its last line with the announced
    bank count and bank size and a total of 0. *)
Theorem zero_size_transfer (args : Args) (ser : SerialPort) (outfile : File)
    (w : World) (m c lo hi : byte) :
  tx_ok w = true ->
  sink_ok w = true ->
  fst (rx_take 4 (rx w)) = [m; c; lo; hi] ->
  byte_val m = 61 ->
  let bank_size := Z.lor (byte_val lo) (Z.shiftl (byte_val hi) 8) in
  byte_val c = 0 \/ bank_size = 0 ->
  let r := session args ser outfile w in
  let name := file_name outfile in
  events r =
    [trigger; EvSerRead 4 [m; c; lo; hi];
     EvPrint (MsgDumping (byte_val c) bank_size 0);
     EvSerRead 0 []; EvFileWrite name [];
     EvPrint (MsgDumped (args_outfile args)); EvFileClose name] /\
  outcome r = Returned tt /\
  verdict r = Done {| bankCount := byte_val c; bankSize := bank_size;
                      totalBytes := 0 |} /\
  sink_received (events r) = [] /\
  (forall old, fs w !! name = Some old -> fs (final r) = fs w).
Proof.
  intros Htx Hsink Hhdr Hm bank_size Hzero r name. subst r name.
  rewrite (session_transfer args ser outfile w m c lo hi Htx Hhdr Hm).
  rewrite Hsink. fold bank_size.
  assert (Htot : byte_val c * bank_size = 0) by (destruct Hzero; nia).
  rewrite Htot.
  assert (Hpay : payload_read 0 w = []) by apply rx_take_0.
  rewrite Hpay. simpl.
  repeat split; try reflexivity.
  intros old Hold. rewrite Hold. simpl. rewrite app_nil_r.
  now apply insert_id.
Qed.

Lemma zero_size_transfer_witness :
  verdict (session demo_args demo_ser demo_file empty_dump_world)
  = Done {| bankCount := 0; bankSize := 0; totalBytes := 0 |}.
Proof.
  apply (zero_size_transfer demo_args demo_ser demo_file empty_dump_world
           "="%byte x00 x00 x00);
    [reflexivity | reflexivity | reflexivity | reflexivity
    | left; reflexivity].
Defined.

(** ** The whole script *)

Arguments session : simpl never.

Lemma main_port_fails (args : Args) (w : World) :
  port_ok w = false ->
  main args w =
    mkRun (Raised SerialException) w
          (greeting args
           ++ [EvSerialOpen (args_ttynode args) (args_baudrate args)
                            (args_baudrate args)]).
Proof.
  intros Hp. unfold main, greeting, mbind, Py_bind, bind, Serial, print, ret.
  destruct (args_verbose args); simpl; now rewrite Hp.
Qed.

Lemma main_file_fails (args : Args) (w : World) :
  port_ok w = true ->
  file_ok w = false ->
  main args w = mkRun (Raised OSError) w (greeting args ++ opening args).
Proof.
  intros Hp Hf.
  unfold main, greeting, opening, mbind, Py_bind, bind, Serial, open_wb,
    print, ret.
  destruct (args_verbose args); simpl; rewrite Hp; simpl; now rewrite Hf.
Qed.

(** Lines 17 to 25 succeed: the rest of the run is the session, started
    on the port of line 22 and the fresh file of line 25. *)
Lemma main_session (args : Args) (w : World) :
  port_ok w = true ->
  file_ok w = true ->
  main args w =
    mkRun (outcome (session args (port_of args)
                            {| file_name := args_outfile args |}
                            (opened args w)))
          (final (session args (port_of args)
                          {| file_name := args_outfile args |}
                          (opened args w)))
          (greeting args ++ opening args
           ++ events (session args (port_of args)
                              {| file_name := args_outfile args |}
                              (opened args w))).
Proof.
  intros Hp Hf.
  unfold main, greeting, opening, opened, port_of, mbind, Py_bind, bind,
    Serial, open_wb, print, ret.
  destruct (args_verbose args); simpl; rewrite Hp; simpl; rewrite Hf;
    simpl; destruct (session _ _ _ _); reflexivity.
Qed.

(** C8 (end-to-end example): the device answers the trigger with the
    header [0x3D, 0x02, 0x00, 0x01] followed by 512 payload bytes.  The
    script sends 0x21, announces 2 banks of 256 bytes, 512 in total,
    hands those 512 bytes to the file in the order they came, and ends
    on its last line with the file holding exactly them. *)
Theorem end_to_end_example (args : Args) (payload : list byte) :
  length payload = 512%nat ->
  let w := quiet_world [["="%byte; x02; x00; x01] ++ payload] in
  let r := main args w in
  outcome r = Returned tt /\
  verdict r = Done {| bankCount := 2; bankSize := 256; totalBytes := 512 |} /\
  channel_sent (events r) = ["!"%byte] /\
  tx (final r) = ["!"%byte] /\
  sink_received (events r) = payload /\
  fs (final r) !! args_outfile args = Some payload.
Proof.
  intros Hlen w r. subst r w.
  rewrite main_session by reflexivity.
  rewrite (session_transfer args (port_of args)
             {| file_name := args_outfile args |}
             (opened args (quiet_world [["="%byte; x02; x00; x01] ++ payload]))
             "="%byte x02 x00 x01) by reflexivity.
  assert (Hpay : payload_read 512
                   (opened args
                      (quiet_world [["="%byte; x02; x00; x01] ++ payload]))
                 = payload).
  { unfold payload_read, after_header, opened, quiet_world. simpl rx.
    rewrite drop_0. unfold rx_take. rewrite Hlen.
    replace (Z.to_nat 512) with 512%nat by reflexivity.
    rewrite Nat.leb_refl. simpl fst. apply take_ge. now rewrite Hlen. }
  change (byte_val x02 * Z.lor (byte_val x00) (Z.shiftl (byte_val x01) 8))
    with 512.
  rewrite Hpay.
  change (sink_ok (opened args
            (quiet_world [["="%byte; x02; x00; x01] ++ payload]))) with true.
  cbv iota.
  unfold greeting, opening, verdict, summary, printed, channel_sent,
    sink_received.
  destruct (args_verbose args); simpl; rewrite ?app_nil_r;
    (repeat split; try reflexivity);
    rewrite !lookup_insert_eq; simpl; reflexivity.
Qed.

Lemma end_to_end_example_witness :
  fs (final (main demo_args
               (quiet_world [["="%byte; x02; x00; x01] ++ ramp 2])))
    !! "save.bin"%string
  = Some (ramp 2).
Proof.
  apply (end_to_end_example demo_args (ramp 2)). reflexivity.
Defined.

(** ** Opening the port and the file *)

(** The session itself never opens a port. *)
Lemma session_no_serial_open (args : Args) (ser : SerialPort)
    (outfile : File) (w : World) :
  filter (fun ev => is_serial_open ev = true)
         (events (session args ser outfile w)) = [].
Proof.
  destruct (session_path args ser outfile w); reflexivity.
Qed.

(** C9 (read timeout): the one call that opens the port passes the baud
    rate as the read timeout, which pyserial counts in seconds; without
    [-b] that is 57600, not 1. *)
Theorem timeout_is_baudrate (args : Args) (w : World) :
  filter (fun ev => is_serial_open ev = true) (events (main args w))
    = [EvSerialOpen (args_ttynode args) (args_baudrate args)
                    (args_baudrate args)] /\
  ser_timeout (port_of args) = args_baudrate args /\
  (forall o d v,
      filter (fun ev => is_serial_open ev = true)
             (events (main (parse_args o d v None) w))
      = [EvSerialOpen d 57600 57600]) /\
  DEFAULT_BAUDRATE <> 1.
Proof.
  assert (H : forall a,
             filter (fun ev => is_serial_open ev = true) (events (main a w))
             = [EvSerialOpen (args_ttynode a) (args_baudrate a)
                             (args_baudrate a)]).
  { intros a. destruct (port_ok w) eqn:Hp.
    - destruct (file_ok w) eqn:Hf.
      + rewrite main_session by assumption. unfold events at 1.
        rewrite !filter_app, session_no_serial_open.
        unfold greeting. now destruct (args_verbose a).
      + rewrite main_file_fails by assumption. simpl events.
        unfold greeting. now destruct (args_verbose a).
    - rewrite main_port_fails by assumption. simpl events.
      unfold greeting. now destruct (args_verbose a). }
  split; [apply H|]. split; [reflexivity|].
  split; [intros o d v; apply H|discriminate].
Qed.

(** Whatever comes before the first event that satisfies [P] contains
    every leading stretch of events that do not. *)
Lemma split_after_prefix (P : Event -> bool) (l1 l2 pre post : list Event)
    (ev : Event) :
  l1 ++ l2 = pre ++ ev :: post ->
  Forall (fun e => P e = false) l1 ->
  P ev = true ->
  exists pre', pre = l1 ++ pre'.
Proof.
  revert pre. induction l1 as [|x l1 IH]; intros pre Heq Hall Hev.
  - now exists pre.
  - apply Forall_cons in Hall as [Hx Hall].
    destruct pre as [|y pre]; simpl in Heq.
    + injection Heq as -> _. congruence.
    + injection Heq as -> Heq.
      destruct (IH pre Heq Hall Hev) as [pre' ->].
      now exists pre'.
Qed.

(** The session leaves the file system alone, or appends what it handed
    to the file. *)
Lemma session_fs (args : Args) (ser : SerialPort) (outfile : File)
    (w : World) :
  fs (final (session args ser outfile w)) = fs w \/
  exists data,
    In (EvFileWrite (file_name outfile) data)
       (events (session args ser outfile w)) /\
    fs (final (session args ser outfile w))
    = <[file_name outfile := default [] (fs w !! file_name outfile) ++ data]>
        (fs w).
Proof.
  destruct (session_path args ser outfile w); try (left; reflexivity).
  right. eexists. split; [|reflexivity]. simpl. tauto.
Qed.

(** C10 (sink opened first): the output file is opened before the
    script touches the line, so every channel write or read comes after
    the [open] call; once both opens succeeded the file exists at the
    end of the run however the session went, and it is empty whenever
    the script never got to write to it. *)
Theorem sink_opened_first (args : Args) (w : World) :
  (forall pre ev post,
      events (main args w) = pre ++ ev :: post ->
      is_channel_io ev = true ->
      In (EvFileOpen (args_outfile args)) pre) /\
  (port_ok w = true -> file_ok w = true ->
   is_Some (fs (final (main args w)) !! args_outfile args)) /\
  (port_ok w = true -> file_ok w = true ->
   Forall (fun ev => is_file_write ev = false) (events (main args w)) ->
   fs (final (main args w)) !! args_outfile args = Some []).
Proof.
  assert (Hquiet : Forall (fun e => is_channel_io e = false)
                          (greeting args ++ opening args)).
  { unfold greeting, opening. destruct (args_verbose args);
      repeat constructor. }
  assert (Hnew : fs (opened args w) !! args_outfile args = Some [])
    by apply lookup_insert_eq.
  destruct (port_ok w) eqn:Hp.
  2: { rewrite main_port_fails by assumption. unfold events.
       split; [|split; discriminate].
       intros pre ev post H Hio. exfalso.
       assert (Hall : Forall (fun e => is_channel_io e = false)
                        (greeting args
                         ++ [EvSerialOpen (args_ttynode args)
                               (args_baudrate args) (args_baudrate args)])).
       { unfold greeting. destruct (args_verbose args); repeat constructor. }
       rewrite H in Hall. apply Forall_app in Hall as [_ Hall].
       apply Forall_cons in Hall as [Hev _]. congruence. }
  destruct (file_ok w) eqn:Hf.
  2: { rewrite main_file_fails by assumption. unfold events.
       split; [|split; discriminate].
       intros pre ev post H Hio. exfalso.
       rewrite H in Hquiet. apply Forall_app in Hquiet as [_ Hall].
       apply Forall_cons in Hall as [Hev _]. congruence. }
  rewrite main_session by assumption. cbn [events final].
  pose proof (session_fs args (port_of args)
                {| file_name := args_outfile args |} (opened args w)) as Hfs.
  simpl file_name in Hfs.
  split; [|split].
  - intros pre ev post H Hio. rewrite app_assoc in H.
    destruct (split_after_prefix is_channel_io _ _ _ _ _ H Hquiet Hio)
      as [pre' ->].
    apply in_or_app. left. apply in_or_app. right.
    unfold opening. simpl. tauto.
  - intros _ _. destruct Hfs as [-> | (data & _ & ->)].
    + rewrite Hnew. eauto.
    + rewrite lookup_insert_eq. eauto.
  - intros _ _ Hall. destruct Hfs as [-> | (data & Hin & _)].
    + exact Hnew.
    + exfalso.
      apply Forall_app in Hall as [_ Hall].
      apply Forall_app in Hall as [_ Hall].
      rewrite List.Forall_forall in Hall.
      specialize (Hall _ Hin). discriminate Hall.
Qed.

Lemma sink_opened_first_witness :
  fs (final (main demo_args silent_world)) !! args_outfile demo_args
  = Some [].
Proof.
  apply (sink_opened_first demo_args silent_world);
    [reflexivity | reflexivity | repeat constructor].
Defined.

(** * Further properties of the script *)

(** ** The two size bytes *)


(** Line 41 loses nothing: the bank size is a 16-bit value whose low
    and high bytes are the two bytes the device sent. *)
Lemma bank_size_bytes (lo hi : byte) :
  let s := Z.lor (byte_val lo) (Z.shiftl (byte_val hi) 8) in
  0 <= s <= 65535 /\
  Z.land s 255 = byte_val lo /\
  Z.land (Z.shiftr s 8) 255 = byte_val hi.
Proof.
  intros s. subst s.
  pose proof (byte_val_range lo) as Hlo.
  pose proof (byte_val_range hi) as Hhi.
  assert (Hlo0 : forall n, 8 <= n -> Z.testbit (byte_val lo) n = false).
  { intros n Hn. destruct (Z.eq_dec (byte_val lo) 0) as [->|Hnz];
      [apply Z.testbit_0_l|].
    apply Z.bits_above_log2; [lia|].
    apply Z.lt_le_trans with 8; [|lia].
    apply Z.log2_lt_pow2; lia. }
  assert (Hhi0 : forall n, 8 <= n -> Z.testbit (byte_val hi) n = false).
  { intros n Hn. destruct (Z.eq_dec (byte_val hi) 0) as [->|Hnz];
      [apply Z.testbit_0_l|].
    apply Z.bits_above_log2; [lia|].
    apply Z.lt_le_trans with 8; [|lia].
    apply Z.log2_lt_pow2; lia. }
  split; [|split].
  - assert (Hs : 0 <= Z.lor (byte_val lo) (Z.shiftl (byte_val hi) 8)).
    { apply Z.lor_nonneg. split; [lia|]. apply Z.shiftl_nonneg. lia. }
    split; [exact Hs|].
    destruct (Z.eq_dec (Z.lor (byte_val lo) (Z.shiftl (byte_val hi) 8)) 0)
      as [->|Hnz]; [lia|].
    assert (Hlt : Z.log2 (Z.lor (byte_val lo) (Z.shiftl (byte_val hi) 8)) < 16).
    { rewrite Z.log2_lor by (try apply Z.shiftl_nonneg; lia).
      apply Z.max_lub_lt.
      - destruct (Z.eq_dec (byte_val lo) 0) as [->|?]; [simpl; lia|].
        apply Z.log2_lt_pow2; lia.
      - destruct (Z.eq_dec (byte_val hi) 0) as [->|?];
          [rewrite Z.shiftl_0_l; simpl; lia|].
        rewrite Z.log2_shiftl by lia.
        assert (Z.log2 (byte_val hi) < 8) by (apply Z.log2_lt_pow2; lia).
        lia. }
    apply Z.log2_lt_pow2 in Hlt; lia.
  - apply Z.bits_inj'. intros n Hn.
    rewrite Z.land_spec, Z.lor_spec, testbit_255, Z.shiftl_spec by lia.
    destruct (Z.ltb_spec n 8).
    + rewrite (Z.testbit_neg_r _ (n - 8)) by lia.
      now rewrite orb_false_r, andb_true_r.
    + rewrite andb_false_r. symmetry. apply Hlo0. lia.
  - apply Z.bits_inj'. intros n Hn.
    rewrite Z.land_spec, Z.shiftr_spec, Z.lor_spec, testbit_255,
      Z.shiftl_spec by lia.
    replace (n + 8 - 8) with n by lia.
    rewrite Hlo0 by lia. simpl.
    destruct (Z.ltb_spec n 8).
    + now rewrite andb_true_r.
    + rewrite andb_false_r. symmetry. apply Hhi0. lia.
Qed.



(** ** Sizes *)

Lemma payload_read_length (total : Z) (w : World) :
  (length (payload_read total w) <= Z.to_nat total)%nat.
Proof. apply rx_take_length. Qed.

Lemma total_range (c lo hi : byte) :
  0 <= byte_val c * Z.lor (byte_val lo) (Z.shiftl (byte_val hi) 8)
    <= 255 * 65535.
Proof.
  pose proof (byte_val_range c).
  destruct (bank_size_bytes lo hi) as (Hs & _).
  nia.
Qed.

(** X2: whatever the device sends, a session never asks the line for
    more than 255 * 65535 bytes in one read, never gets more than it
    asked for, and every total it announces is the product of a bank
    count of at most 255 and a bank size of at most 65535. *)
Theorem sizes_bounded (args : Args) (ser : SerialPort) (outfile : File)
    (w : World) :
  (forall size data,
      In (EvSerRead size data) (events (session args ser outfile w)) ->
      0 <= size <= 255 * 65535 /\ (length data <= Z.to_nat size)%nat) /\
  (forall n s t,
      In (EvPrint (MsgDumping n s t)) (events (session args ser outfile w)) ->
      t = n * s /\ 0 <= n <= 255 /\ 0 <= s <= 65535).
Proof.
  pose proof (rx_take_length 4 (rx w)) as Hlen.
  destruct (session_path args ser outfile w) as
    [Htx|Htx Hh|b rest Htx Hh Hb|m rest Htx Hh Hm Hl
    |m c lo hi Htx Hh Hm Hs|m c lo hi Htx Hh Hm Hs];
    try rewrite Hh in Hlen; cbn [events]; split.
  all: try (intros size data Hin; simpl in Hin;
            repeat (destruct Hin as [Hin|Hin]; try discriminate Hin);
            try contradiction;
            injection Hin as <- <-;
            first [ split; [lia | exact Hlen]
                  | split; [apply total_range | apply payload_read_length] ]).
  all: intros n s t Hin; simpl in Hin;
       repeat (destruct Hin as [Hin|Hin]; try discriminate Hin);
       try contradiction;
       injection Hin as <- <- <-;
       split; try reflexivity; split;
       try apply byte_val_range; apply (bank_size_bytes lo hi).
Qed.

(** ** The byte stream *)

(** A read takes its bytes from the front of the line and leaves the
    rest in place. *)
Lemma rx_take_conserves (n : nat) (q : list (list byte)) :
  fst (rx_take n q) ++ concat (snd (rx_take n q)) = concat q.
Proof.
  unfold rx_take. destruct q as [|burst rest]; [reflexivity|].
  destruct (n <=? length burst)%nat; simpl.
  - now rewrite app_assoc, take_drop.
  - reflexivity.
Qed.

(** X3: a session consumes a prefix of what the device sends: the bytes
    its reads returned, followed by what is still queued on the line
    when it ends, are the byte stream as sent.  Nothing is skipped,
    reordered or read twice, and bytes after the payload stay unread. *)
Theorem stream_conserved (args : Args) (ser : SerialPort) (outfile : File)
    (w : World) :
  line_read (events (session args ser outfile w))
    ++ concat (rx (final (session args ser outfile w)))
  = concat (rx w).
Proof.
  pose proof (rx_take_conserves 4 (rx w)) as H4.
  destruct (session_path args ser outfile w) as
    [Htx|Htx Hh|b rest Htx Hh Hb|m rest Htx Hh Hm Hl
    |m c lo hi Htx Hh Hm Hs|m c lo hi Htx Hh Hm Hs];
    try rewrite Hh in H4; unfold line_read; cbn [events final omap];
    try exact H4.
  - reflexivity.
  - simpl. rewrite app_nil_r. exact H4.
  - simpl. rewrite app_nil_r. exact H4.
  - rewrite <- H4. simpl. rewrite app_nil_r. do 4 f_equal.
    apply (rx_take_conserves (Z.to_nat total) (rx (after_header w))).
  - rewrite <- H4. simpl. rewrite app_nil_r. do 4 f_equal.
    apply (rx_take_conserves (Z.to_nat total) (rx (after_header w))).
Qed.

Lemma sizes_bounded_witness :
  0 <= 512 <= 255 * 65535 /\
  (length (payload_read 512 short_world) <= Z.to_nat 512)%nat.
Proof.
  apply (sizes_bounded demo_args demo_ser demo_file short_world).
  vm_compute. tauto.
Defined.

(** ** Full and interrupted transfers *)






(** ** How a session ends *)



(** X7: one attempt only: a session issues at most two reads and at
    most one write to the file, whatever the device does; it never
    asks again after a read that came back short. *)
Theorem single_attempt (args : Args) (ser : SerialPort) (outfile : File)
    (w : World) :
  (length (filter (fun ev => is_ser_read ev = true)
                  (events (session args ser outfile w))) <= 2)%nat /\
  (length (filter (fun ev => is_file_write ev = true)
                  (events (session args ser outfile w))) <= 1)%nat.
Proof.
  destruct (session_path args ser outfile w); cbn [events];
    split; apply Nat.leb_le; reflexivity.
Qed.

(** X8: the script listens only after its trigger went out: a session
    whose trace holds a read is one where the port accepted the write,
    and the line then carries exactly the byte 0x21 more than before. *)
Theorem reads_follow_trigger (args : Args) (ser : SerialPort)
    (outfile : File) (w : World) (size : Z) (data : list byte) :
  In (EvSerRead size data) (events (session args ser outfile w)) ->
  tx_ok w = true /\
  tx (final (session args ser outfile w)) = tx w ++ ["!"%byte].
Proof.
  destruct (session_path args ser outfile w); cbn [events final];
    intros Hin; try (split; [assumption|reflexivity]).
  simpl in Hin. destruct Hin as [Hin|[]]. discriminate Hin.
Qed.

Lemma reads_follow_trigger_witness :
  tx_ok silent_world = true /\
  tx (final (session demo_args demo_ser demo_file silent_world))
  = tx silent_world ++ ["!"%byte].
Proof.
  apply (reads_follow_trigger demo_args demo_ser demo_file silent_world
           4 []).
  vm_compute. tauto.
Defined.

(** ** The script and the file system *)

(** X9: the script touches one file only: every other path of the file
    system holds at the end of a run what it held before. *)
Theorem other_files_untouched (args : Args) (w : World) (name : string) :
  name <> args_outfile args ->
  fs (final (main args w)) !! name = fs w !! name.
Proof.
  intros Hne.
  destruct (port_ok w) eqn:Hp;
    [|now rewrite main_port_fails by assumption].
  destruct (file_ok w) eqn:Hf;
    [|now rewrite main_file_fails by assumption].
  rewrite main_session by assumption. cbn [final].
  assert (Hopen : fs (opened args w) !! name = fs w !! name)
    by (apply lookup_insert_ne; congruence).
  destruct (session_fs args (port_of args)
              {| file_name := args_outfile args |} (opened args w))
    as [-> | (data & _ & ->)]; [exact Hopen|].
  cbn [file_name]. rewrite lookup_insert_ne by congruence. exact Hopen.
Qed.

Lemma other_files_untouched_witness :
  fs (final (main demo_args short_world)) !! "other.bin"%string
  = fs short_world !! "other.bin"%string.
Proof.
  apply (other_files_untouched demo_args short_world "other.bin").
  discriminate.
Defined.

(** X10: when the port or the output file cannot be opened the script
    stops with the exception of that call and leaves the world as it
    found it: nothing is sent, nothing is read, and no file is created
    or emptied. *)
Theorem failed_open_changes_nothing (args : Args) (w : World) :
  port_ok w = false \/ file_ok w = false ->
  final (main args w) = w /\
  (exists e, outcome (main args w) = Raised e) /\
  Forall (fun ev => is_channel_io ev = false) (events (main args w)).
Proof.
  intros Hfail.
  destruct (port_ok w) eqn:Hp.
  - destruct Hfail as [Hfail|Hf]; [discriminate|].
    rewrite main_file_fails by assumption. cbn [final outcome events].
    split; [reflexivity|]. split; [eauto|].
    unfold greeting, opening. destruct (args_verbose args);
      repeat constructor.
  - rewrite main_port_fails by assumption. cbn [final outcome events].
    split; [reflexivity|]. split; [eauto|].
    unfold greeting. destruct (args_verbose args); repeat constructor.
Qed.

Lemma failed_open_changes_nothing_witness :
  final (main demo_args (set_fs (<["save.bin"%string := [x01]]> ∅)
                           {| port_ok := false; file_ok := true;
                              tx_ok := true; sink_ok := true;
                              rx := []; tx := []; fs := ∅ |}))
  = set_fs (<["save.bin"%string := [x01]]> ∅)
      {| port_ok := false; file_ok := true; tx_ok := true; sink_ok := true;
         rx := []; tx := []; fs := ∅ |}.
Proof.
  apply (failed_open_changes_nothing demo_args).
  left. reflexivity.
Defined.



(** X12: the [-v] flag changes what is printed first and nothing else:
    with it the run has the same outcome and leaves the same world, and
    its trace is the trace without it after one "Connecting" line. *)
Theorem verbose_only_greets (args : Args) (w : World) :
  outcome (main (with_verbose true args) w)
  = outcome (main (with_verbose false args) w) /\
  final (main (with_verbose true args) w)
  = final (main (with_verbose false args) w) /\
  events (main (with_verbose true args) w)
  = EvPrint (MsgConnecting (args_ttynode args) (args_baudrate args))
      :: events (main (with_verbose false args) w).
Proof.
  destruct (port_ok w) eqn:Hp;
    [|rewrite !main_port_fails by assumption; repeat split].
  destruct (file_ok w) eqn:Hf;
    [|rewrite !main_file_fails by assumption; repeat split].
  rewrite !main_session by assumption. cbn [outcome final events].
  change (session (with_verbose true args) (port_of (with_verbose true args))
            {| file_name := args_outfile (with_verbose true args) |}
            (opened (with_verbose true args) w))
    with (session (with_verbose false args)
            (port_of (with_verbose false args))
            {| file_name := args_outfile (with_verbose false args) |}
            (opened (with_verbose false args) w)).
  repeat split.
Qed.
